(** * The base test-infrastructure stack of aws-sdk-pandas

    A shallow embedding of [test_infra/stacks/base_stack.py].  The
    constructor [BaseStack.__init__] registers a fixed sequence of
    constructs against the stack; the file models that registration by
    explicit state passing (the stack's construct node) in an error monad
    (Python exceptions raised by list indexing and by [find_child]), and
    proves the structural properties of the declared resource graph. *)

From stdpp Require Import base option list strings gmap.

(** ** Values

    Attribute values of constructs are either literal strings or tokens
    that the provisioning engine resolves later; an f-string over a token
    is a concatenation of pieces. *)

Inductive Token :=
  | Lit (s : string)
  | Ref (node_id : string)
  | GetAtt (node_id : string) (attribute : string).

Definition Value := list Token.

Global Instance Token_eq_dec : EqDecision Token.
Proof. solve_decision. Defined.

(** ** Property records, one per construct class used by the stack *)

Module ec2.
Record VpcProps := {
  cidr : string;
  enable_dns_hostnames : bool;
  enable_dns_support : bool
}.

(** A child resource of a subnet; [ref] is its [.ref] attribute. *)
Record CfnResource := { ref : Value }.

(** A subnet as the code reads it: [node.id], [subnet_id] and the
    children of its node, looked up by identifier. *)
Record Subnet := {
  node_id : string;
  subnet_id : Value;
  node_children : list (string * CfnResource)
}.

Record Vpc := {
  vpc_node_id : string;
  vpc_props : VpcProps;
  public_subnets : list Subnet;
  private_subnets : list Subnet
}.

Definition vpc_id (v : Vpc) : Value := [Ref (vpc_node_id v)].
End ec2.

Module iam.
Inductive Effect := ALLOW | DENY.

Inductive Principal :=
  | ServicePrincipal (service : string)
  | AccountRootPrincipal.

Record PolicyStatement := {
  sid : option string;
  effect : option Effect;
  actions : list string;
  principals : list Principal;
  resources : list string
}.

(** Modelled from the spec: the effect of a statement built without an
    [effect] argument.  [iam.PolicyStatement] is declared by aws_cdk,
    outside this repository; the spec gives the inline policy of the
    data-quality role, whose statement is built without that argument, as
    granting its action, so an omitted effect stands for ALLOW. *)
Definition statement_effect (s : PolicyStatement) : Effect :=
  default ALLOW (effect s).

Record PolicyDocument := { statements : list PolicyStatement }.

Inductive ManagedPolicy :=
  | from_aws_managed_policy_name (name : string).

Record RoleProps := {
  role_name : string;
  assumed_by : Principal;
  managed_policies : list ManagedPolicy;
  inline_policies : gmap string PolicyDocument
}.

Record Role := { role_node_id : string; role_props : RoleProps }.

Definition role_arn (r : Role) : Value := [GetAtt (role_node_id r) "Arn"].
End iam.

Module kms.
Record KeyProps := {
  description : string;
  policy : iam.PolicyDocument
}.

Record Key := { key_node_id : string; key_props : KeyProps }.

Definition key_arn (k : Key) : Value := [GetAtt (key_node_id k) "Arn"].

Record AliasProps := {
  alias_name : string;
  target_key : Key
}.
End kms.

Inductive TimeUnit := Days.

Record Duration := { amount : nat; time_unit : TimeUnit }.

Definition Duration_days (n : nat) : Duration :=
  {| amount := n; time_unit := Days |}.

Module s3.
Record BlockPublicAccess := {
  block_public_acls : bool;
  block_public_policy : bool;
  ignore_public_acls : bool;
  restrict_public_buckets : bool
}.

Record LifecycleRule := {
  id : string;
  enabled : bool;
  expiration : Duration;
  abort_incomplete_multipart_upload_after : Duration
}.

Record BucketProps := {
  block_public_access : BlockPublicAccess;
  lifecycle_rules : list LifecycleRule;
  versioned : bool
}.

Record Bucket := { bucket_node_id : string; bucket_props : BucketProps }.

Definition bucket_name (b : Bucket) : Value := [Ref (bucket_node_id b)].
End s3.

Module ssm.
Record StringParameterProps := {
  string_value : Value;
  parameter_name : string;
  description : Value
}.
End ssm.

Module glue.
Record DatabaseProps := {
  database_name_prop : string;
  location_uri : Value
}.

Record Database := { database_node_id : string; database_props : DatabaseProps }.

Definition database_name (d : Database) : Value := [Ref (database_node_id d)].
End glue.

Module lf.
Record DataLakePrincipalProperty := {
  data_lake_principal_identifier : Value
}.

Record TableResourceProperty := {
  database_name : Value;
  table_wildcard : option (gmap string string)
}.

Record ResourceProperty := { table_resource : option TableResourceProperty }.

Record CfnPermissionsProps := {
  data_lake_principal : DataLakePrincipalProperty;
  resource : ResourceProperty;
  permissions : list string
}.
End lf.

Module logs.
Inductive RetentionDays := ONE_DAY | ONE_WEEK | ONE_MONTH.

(** Modelled from the spec: the number of days each member of the
    library enumeration [logs.RetentionDays] stands for; the enumeration
    is declared by aws_cdk, outside this repository, and the spec gives
    the retention selected by the stack as 30 days. *)
Definition retention_in_days (r : RetentionDays) : nat :=
  match r with
  | ONE_DAY => 1
  | ONE_WEEK => 7
  | ONE_MONTH => 30
  end.

Record LogGroupProps := { retention : RetentionDays }.

Record LogGroup := { log_group_node_id : string; log_group_props : LogGroupProps }.

Definition log_group_name (g : LogGroup) : Value := [Ref (log_group_node_id g)].

Record LogStreamProps := { log_group : LogGroup }.

Record LogStream := { log_stream_node_id : string; log_stream_props : LogStreamProps }.

Definition log_stream_name (s : LogStream) : Value := [Ref (log_stream_node_id s)].
End logs.

Record CfnOutputProps := {
  value : Value;
  export_name : option string
}.

(** ** The construct tree of the stack *)

Inductive Construct :=
  | CVpc (v : ec2.Vpc)
  | CStringParameter (p : ssm.StringParameterProps)
  | CKey (p : kms.KeyProps)
  | CAlias (p : kms.AliasProps)
  | CBucket (p : s3.BucketProps)
  | CRole (p : iam.RoleProps)
  | CDatabase (p : glue.DatabaseProps)
  | CPermissions (p : lf.CfnPermissionsProps)
  | CLogGroup (p : logs.LogGroupProps)
  | CLogStream (p : logs.LogStreamProps)
  | COutput (p : CfnOutputProps).

(** The node of the stack: its children in declaration order, each under
    its construct identifier, and the tags attached to constructs. *)
Record Node := {
  children : list (string * Construct);
  tags : list (string * (string * string))
}.

Definition empty_node : Node := {| children := []; tags := [] |}.

(** ** Exceptions and the construction monad *)

Inductive Error :=
  | IndexError
  | ChildNotFound (id : string).

Inductive Result (A : Type) :=
  | Ok (a : A)
  | Raise (e : Error).
Arguments Ok {A} a.
Arguments Raise {A} e.

Definition M (A : Type) : Type := Node → Result (A * Node).

Global Instance M_ret : MRet M := λ A a st, Ok (a, st).

Global Instance M_bind : MBind M := λ A B f m st,
  match m st with
  | Ok (a, st') => f a st'
  | Raise e => Raise e
  end.

Definition raise {A} (e : Error) : M A := λ _, Raise e.

Definition lift {A} (e : Error) (o : option A) : M A :=
  match o with
  | Some a => mret a
  | None => raise e
  end.

(** Registering a construct under the stack. *)
Definition add_child (id : string) (c : Construct) : M unit := λ st,
  Ok ((), {| children := children st ++ [(id, c)]; tags := tags st |}).

(** [for x in l: body(x)] *)
Fixpoint for_each {A} (l : list A) (body : A → M unit) : M unit :=
  match l with
  | [] => mret ()
  | x :: l' => body x ;; for_each l' body
  end.

(** [l[i]] on a Python list, for a non-negative literal index. *)
Definition index {A} (l : list A) (i : nat) : M A := lift IndexError (l !! i).

(** [node.find_child(id)]: the child of that identifier, an exception when
    there is none. *)
Definition find_child (s : ec2.Subnet) (id : string) : M ec2.CfnResource :=
  lift (ChildNotFound id)
       ((λ hit, hit.2.2) <$> list_find (λ c, c.1 = id) (ec2.node_children s)).

(** [Tags.of(target).add(key, value)] *)
Definition Tags_add (target : string) (key value : string) : M unit := λ st,
  Ok ((), {| children := children st; tags := tags st ++ [(target, (key, value))] |}).

(** ** Construct classes: each call registers the construct under the
    stack and hands back the object the code keeps. *)

Definition ec2_Vpc (subnets : list ec2.Subnet * list ec2.Subnet)
    (id : string) (props : ec2.VpcProps) : M ec2.Vpc :=
  let v := {| ec2.vpc_node_id := id; ec2.vpc_props := props;
              ec2.public_subnets := subnets.1;
              ec2.private_subnets := subnets.2 |} in
  add_child id (CVpc v) ;; mret v.

Definition ssm_StringParameter (id : string)
    (props : ssm.StringParameterProps) : M unit :=
  add_child id (CStringParameter props).

Definition kms_Key (id : string) (props : kms.KeyProps) : M kms.Key :=
  add_child id (CKey props) ;;
  mret {| kms.key_node_id := id; kms.key_props := props |}.

Definition kms_Alias (id : string) (props : kms.AliasProps) : M unit :=
  add_child id (CAlias props).

Definition s3_Bucket (id : string) (props : s3.BucketProps) : M s3.Bucket :=
  add_child id (CBucket props) ;;
  mret {| s3.bucket_node_id := id; s3.bucket_props := props |}.

Definition iam_Role (id : string) (props : iam.RoleProps) : M iam.Role :=
  add_child id (CRole props) ;;
  mret {| iam.role_node_id := id; iam.role_props := props |}.

Definition glue_Database (id : string) (props : glue.DatabaseProps)
    : M glue.Database :=
  add_child id (CDatabase props) ;;
  mret {| glue.database_node_id := id; glue.database_props := props |}.

Definition lf_CfnPermissions (id : string) (props : lf.CfnPermissionsProps)
    : M unit :=
  add_child id (CPermissions props).

Definition logs_LogGroup (id : string) (props : logs.LogGroupProps)
    : M logs.LogGroup :=
  add_child id (CLogGroup props) ;;
  mret {| logs.log_group_node_id := id; logs.log_group_props := props |}.

Definition logs_LogStream (id : string) (props : logs.LogStreamProps)
    : M logs.LogStream :=
  add_child id (CLogStream props) ;;
  mret {| logs.log_stream_node_id := id; logs.log_stream_props := props |}.

Definition CfnOutput (id : string) (value : Value)
    (export_name : option string) : M unit :=
  add_child id (COutput {| value := value; export_name := export_name |}).

(** ** The stack *)

(** The [Stack] base object: the identity it was built with, the
    configuration map passed through to it, and its [region]. *)
Record Stack := {
  construct_id : string;
  kwargs : gmap string string;
  region : Value
}.

(** The object built by [BaseStack.__init__]: the base object, the three
    attributes [self.vpc], [self.key], [self.bucket], and the node with
    every construct declared against the stack. *)
Record BaseStack := {
  base : Stack;
  vpc : ec2.Vpc;
  key : kms.Key;
  bucket : s3.Bucket;
  node : Node
}.

Section BaseStack.

(** What the library computes from the scope, outside this repository:
    the region of a stack, and the public and private subnets that the
    network construct derives for it. *)
Context {Scope : Type}.
Variable stack_region : Scope → string → gmap string string → Value.
Variable vpc_subnets :
  Scope → string → gmap string string → ec2.VpcProps →
  list ec2.Subnet * list ec2.Subnet.

(** [super().__init__(scope, construct_id, **kwargs)] *)
Definition Stack_init (scope : Scope) (construct_id : string)
    (kwargs : gmap string string) : Stack :=
  {| construct_id := construct_id; kwargs := kwargs;
     region := stack_region scope construct_id kwargs |}.

(** The body of [BaseStack.__init__] after the call of the base
    constructor, statement by statement. *)
Definition BaseStack_declare (scope : Scope) (self : Stack)
    : M (ec2.Vpc * kms.Key * s3.Bucket) :=
  let vpc_props :=
    {| ec2.cidr := "11.19.224.0/19";
       ec2.enable_dns_hostnames := true;
       ec2.enable_dns_support := true |} in
  self_vpc ← ec2_Vpc
    (vpc_subnets scope (construct_id self) (kwargs self) vpc_props)
    "aws-sdk-pandas-vpc" vpc_props;
  Tags_add (ec2.vpc_node_id self_vpc) "Name" "aws-sdk-pandas" ;;
  for_each (ec2.public_subnets self_vpc) (λ public_subnet,
    elastic_ip ← find_child public_subnet "EIP";
    ssm_StringParameter
      (ec2.node_id public_subnet +:+ " EIP SSM")
      {| ssm.string_value := ec2.ref elastic_ip;
         ssm.parameter_name :=
           "/SDKPandas/VPC/" +:+ ec2.node_id public_subnet +:+ "/EIP";
         ssm.description :=
           Lit "Elastic IP associated with public subnet "
             :: ec2.subnet_id public_subnet |}) ;;
  self_key ← kms_Key "aws-sdk-pandas-key"
    {| kms.description := "AWS SDK for pandas Test Key.";
       kms.policy :=
         {| iam.statements :=
              [ {| iam.sid := Some "Enable IAM User Permissions";
                   iam.effect := Some iam.ALLOW;
                   iam.actions := ["kms:*"];
                   iam.principals := [iam.AccountRootPrincipal];
                   iam.resources := ["*"] |} ] |} |};
  kms_Alias "aws-sdk-pandas-key-alias"
    {| kms.alias_name := "alias/aws-sdk-pandas-key";
       kms.target_key := self_key |} ;;
  self_bucket ← s3_Bucket "aws-sdk-pandas"
    {| s3.block_public_access :=
         {| s3.block_public_acls := true;
            s3.block_public_policy := true;
            s3.ignore_public_acls := true;
            s3.restrict_public_buckets := true |};
       s3.lifecycle_rules :=
         [ {| s3.id := "CleaningUp";
              s3.enabled := true;
              s3.expiration := Duration_days 1;
              s3.abort_incomplete_multipart_upload_after := Duration_days 1 |} ];
       s3.versioned := true |};
  glue_data_quality_role ← iam_Role "aws-sdk-pandas-glue-data-quality-role"
    {| iam.role_name := "GlueDataQualityRole";
       iam.assumed_by := iam.ServicePrincipal "glue.amazonaws.com";
       iam.managed_policies :=
         [ iam.from_aws_managed_policy_name "AmazonS3FullAccess";
           iam.from_aws_managed_policy_name "AWSGlueConsoleFullAccess" ];
       iam.inline_policies :=
         {[ "GetDataAccess" :=
              {| iam.statements :=
                   [ {| iam.sid := None;
                        iam.effect := None;
                        iam.actions := ["lakeformation:GetDataAccess"];
                        iam.principals := [];
                        iam.resources := ["*"] |} ] |} ]} |};
  glue_db ← glue_Database "aws_sdk_pandas_glue_database"
    {| glue.database_name_prop := "aws_sdk_pandas";
       glue.location_uri := Lit "s3://" :: s3.bucket_name self_bucket |};
  lf_CfnPermissions "GlueDataQualitytRoleLFPermissions"
    {| lf.data_lake_principal :=
         {| lf.data_lake_principal_identifier :=
              iam.role_arn glue_data_quality_role |};
       lf.resource :=
         {| lf.table_resource :=
              Some {| lf.database_name := glue.database_name glue_db;
                      lf.table_wildcard := Some ∅ |} |};
       lf.permissions :=
         ["SELECT"; "ALTER"; "DESCRIBE"; "DROP"; "DELETE"; "INSERT"] |} ;;
  log_group ← logs_LogGroup "aws_sdk_pandas_log_group"
    {| logs.retention := logs.ONE_MONTH |};
  log_stream ← logs_LogStream "aws_sdk_pandas_log_stream"
    {| logs.log_group := log_group |};
  CfnOutput "Region" (region self) None ;;
  CfnOutput "VPC" (ec2.vpc_id self_vpc) (Some "aws-sdk-pandas-base-VPC") ;;
  public_subnet_0 ← index (ec2.public_subnets self_vpc) 0;
  CfnOutput "PublicSubnet1" (ec2.subnet_id public_subnet_0)
    (Some "aws-sdk-pandas-base-PublicSubnet1") ;;
  public_subnet_1 ← index (ec2.public_subnets self_vpc) 1;
  CfnOutput "PublicSubnet2" (ec2.subnet_id public_subnet_1)
    (Some "aws-sdk-pandas-base-PublicSubnet2") ;;
  public_subnet_2 ← index (ec2.public_subnets self_vpc) 2;
  CfnOutput "PublicSubnet3" (ec2.subnet_id public_subnet_2)
    (Some "aws-sdk-pandas-base-PublicSubnet3") ;;
  private_subnet_0 ← index (ec2.private_subnets self_vpc) 0;
  CfnOutput "PrivateSubnet" (ec2.subnet_id private_subnet_0)
    (Some "aws-sdk-pandas-base-PrivateSubnet") ;;
  CfnOutput "KmsKeyArn" (kms.key_arn self_key)
    (Some "aws-sdk-pandas-base-KmsKeyArn") ;;
  CfnOutput "BucketName" (s3.bucket_name self_bucket)
    (Some "aws-sdk-pandas-base-BucketName") ;;
  CfnOutput "GlueDatabaseName" (glue.database_name glue_db) None ;;
  CfnOutput "GlueDataQualityRole" (iam.role_arn glue_data_quality_role) None ;;
  CfnOutput "LogGroupName" (logs.log_group_name log_group) None ;;
  CfnOutput "LogStream" (logs.log_stream_name log_stream) None ;;
  mret (self_vpc, self_key, self_bucket).

(** [BaseStack(scope, construct_id, **kwargs)]: the object, or the
    exception that ended the constructor. *)
Definition BaseStack_init (scope : Scope) (construct_id : string)
    (kwargs : gmap string string) : Result BaseStack :=
  let self := Stack_init scope construct_id kwargs in
  match BaseStack_declare scope self empty_node with
  | Ok ((self_vpc, self_key, self_bucket), nd) =>
      Ok {| base := self; vpc := self_vpc; key := self_key;
            bucket := self_bucket; node := nd |}
  | Raise e => Raise e
  end.

End BaseStack.

(** The read-only accessors of the class. *)
Definition get_bucket (self : BaseStack) : s3.Bucket := bucket self.
Definition get_vpc (self : BaseStack) : ec2.Vpc := vpc self.
Definition get_key (self : BaseStack) : kms.Key := key self.

(** ** Views of the declared resource graph, one per construct class *)

Definition select {A} (view : Construct → option A)
    (cs : list (string * Construct)) : list (string * A) :=
  omap (λ c, (λ a, (c.1, a)) <$> view c.2) cs.

Definition networks (nd : Node) : list (string * ec2.Vpc) :=
  select (λ c, match c with CVpc v => Some v | _ => None end)
    (children nd).

Definition string_parameters (nd : Node) : list (string * ssm.StringParameterProps) :=
  select (λ c, match c with CStringParameter p => Some p | _ => None end)
    (children nd).

Definition buckets (nd : Node) : list (string * s3.BucketProps) :=
  select (λ c, match c with CBucket p => Some p | _ => None end)
    (children nd).

Definition roles (nd : Node) : list (string * iam.RoleProps) :=
  select (λ c, match c with CRole p => Some p | _ => None end)
    (children nd).

Definition databases (nd : Node) : list (string * glue.DatabaseProps) :=
  select (λ c, match c with CDatabase p => Some p | _ => None end)
    (children nd).

Definition permission_grants (nd : Node) : list (string * lf.CfnPermissionsProps) :=
  select (λ c, match c with CPermissions p => Some p | _ => None end)
    (children nd).

Definition log_groups (nd : Node) : list (string * logs.LogGroupProps) :=
  select (λ c, match c with CLogGroup p => Some p | _ => None end)
    (children nd).

Definition log_streams (nd : Node) : list (string * logs.LogStreamProps) :=
  select (λ c, match c with CLogStream p => Some p | _ => None end)
    (children nd).

Definition outputs (nd : Node) : list (string * CfnOutputProps) :=
  select (λ c, match c with COutput p => Some p | _ => None end)
    (children nd).

(** The outputs that carry a cross-stack export name, each with its
    identifier, its value and that name. *)
Definition exported_outputs (nd : Node) : list (string * Value * string) :=
  omap (λ o, (λ n, (o.1, value o.2, n)) <$> export_name o.2) (outputs nd).

(** ** A sample deployment: three availability zones, one public and one
    private subnet in each, as the network construct lays them out. *)

Module Sample.

Definition public_subnet (n : string) : ec2.Subnet :=
  {| ec2.node_id := "PublicSubnet" +:+ n;
     ec2.subnet_id := [Ref ("PublicSubnet" +:+ n +:+ "/Subnet")];
     ec2.node_children :=
       [ ("Subnet", {| ec2.ref := [Ref ("PublicSubnet" +:+ n +:+ "/Subnet")] |});
         ("RouteTable", {| ec2.ref := [Ref ("PublicSubnet" +:+ n +:+ "/RouteTable")] |});
         ("EIP", {| ec2.ref := [Ref ("PublicSubnet" +:+ n +:+ "/EIP")] |});
         ("NATGateway", {| ec2.ref := [Ref ("PublicSubnet" +:+ n +:+ "/NATGateway")] |}) ] |}.

Definition private_subnet (n : string) : ec2.Subnet :=
  {| ec2.node_id := "PrivateSubnet" +:+ n;
     ec2.subnet_id := [Ref ("PrivateSubnet" +:+ n +:+ "/Subnet")];
     ec2.node_children :=
       [ ("Subnet", {| ec2.ref := [Ref ("PrivateSubnet" +:+ n +:+ "/Subnet")] |});
         ("RouteTable", {| ec2.ref := [Ref ("PrivateSubnet" +:+ n +:+ "/RouteTable")] |}) ] |}.

Definition region (_ : unit) (_ : string) (_ : gmap string string) : Value :=
  [Ref "AWS::Region"].

Definition subnets (_ : unit) (_ : string) (_ : gmap string string)
    (_ : ec2.VpcProps) : list ec2.Subnet * list ec2.Subnet :=
  ( [public_subnet "1"; public_subnet "2"; public_subnet "3"],
    [private_subnet "1"; private_subnet "2"; private_subnet "3"] ).

(** Two availability zones only: the third public subnet is missing. *)
Definition subnets_two_zones (_ : unit) (_ : string) (_ : gmap string string)
    (_ : ec2.VpcProps) : list ec2.Subnet * list ec2.Subnet :=
  ( [public_subnet "1"; public_subnet "2"],
    [private_subnet "1"; private_subnet "2"] ).

Definition stack : Result BaseStack :=
  BaseStack_init region subnets () "aws-sdk-pandas-base" ∅.

End Sample.

(** ** One iteration of the loop over the public subnets, as a function *)

(** The elastic-IP child that [find_child] hands back for a subnet. *)
Definition elastic_ip_of (subnet : ec2.Subnet) : option ec2.CfnResource :=
  (λ hit, hit.2.2) <$> list_find (λ c, c.1 = "EIP") (ec2.node_children subnet).

(** The parameter record that belongs to a public subnet: its value is the
    subnet's elastic IP, its name is built from the subnet's identifier. *)
Definition eip_record (subnet : ec2.Subnet) (elastic_ip : ec2.CfnResource)
    : string * ssm.StringParameterProps :=
  ( ec2.node_id subnet +:+ " EIP SSM",
    {| ssm.string_value := ec2.ref elastic_ip;
       ssm.parameter_name := "/SDKPandas/VPC/" +:+ ec2.node_id subnet +:+ "/EIP";
       ssm.description :=
         Lit "Elastic IP associated with public subnet "
           :: ec2.subnet_id subnet |} ).

Definition eip_parameter (subnet : ec2.Subnet) : option (string * Construct) :=
  elastic_ip ← elastic_ip_of subnet;
  Some ((eip_record subnet elastic_ip).1,
        CStringParameter (eip_record subnet elastic_ip).2).

(** [record] is the parameter record of [subnet]. *)
Definition is_record_of (subnet : ec2.Subnet)
    (record : string * ssm.StringParameterProps) : Prop :=
  ∃ elastic_ip, elastic_ip_of subnet = Some elastic_ip ∧
                record = eip_record subnet elastic_ip.

Definition extend (cs : list (string * Construct)) (st : Node) : Node :=
  {| children := children st ++ cs; tags := tags st |}.

(** The network properties the stack passes to the network construct. *)
Definition network_props : ec2.VpcProps :=
  {| ec2.cidr := "11.19.224.0/19";
     ec2.enable_dns_hostnames := true;
     ec2.enable_dns_support := true |}.

(** What construction needs from the derived subnets: three public
    subnets, an elastic-IP child on every public subnet, one private
    subnet. *)
Definition has_elastic_ip (subnet : ec2.Subnet) : Prop :=
  ∃ elastic_ip, ("EIP", elastic_ip) ∈ ec2.node_children subnet.

Definition subnets_sufficient (subnets : list ec2.Subnet * list ec2.Subnet)
    : Prop :=
  3 ≤ length subnets.1 ∧ Forall has_elastic_ip subnets.1 ∧ 1 ≤ length subnets.2.

(** The record is the one named after the subnet's identifier. *)
Definition named_after (subnet : ec2.Subnet)
    (record : string * ssm.StringParameterProps) : Prop :=
  ssm.parameter_name record.2 = "/SDKPandas/VPC/" +:+ ec2.node_id subnet +:+ "/EIP".

Global Instance named_after_dec subnet record : Decision (named_after subnet record).
Proof. unfold named_after. apply _. Defined.

(** Further views of the node: keys, aliases, and the identifiers of all
    declared constructs in declaration order. *)
Definition keys (nd : Node) : list (string * kms.KeyProps) :=
  select (λ c, match c with CKey p => Some p | _ => None end)
    (children nd).

Definition aliases (nd : Node) : list (string * kms.AliasProps) :=
  select (λ c, match c with CAlias p => Some p | _ => None end)
    (children nd).

Definition construct_ids (nd : Node) : list string := (children nd).*1.

(** The construct identifier under which the loop declares the record of
    a public subnet. *)
Definition eip_parameter_id (subnet : ec2.Subnet) : string :=
  ec2.node_id subnet +:+ " EIP SSM".

(** Whether a string holds a space character. *)
Fixpoint has_space (s : string) : bool :=
  match s with
  | EmptyString => false
  | String c s' => bool_decide (c = Ascii.Space) || has_space s'
  end.

(** Deployments the constructor cannot complete: a network without NAT
    gateways, whose second public subnet has no elastic-IP child. *)
Module Degenerate.

Definition bare_public_subnet (n : string) : ec2.Subnet :=
  {| ec2.node_id := "PublicSubnet" +:+ n;
     ec2.subnet_id := [Ref ("PublicSubnet" +:+ n +:+ "/Subnet")];
     ec2.node_children :=
       [ ("Subnet", {| ec2.ref := [Ref ("PublicSubnet" +:+ n +:+ "/Subnet")] |});
         ("RouteTable", {| ec2.ref := [Ref ("PublicSubnet" +:+ n +:+ "/RouteTable")] |}) ] |}.

Definition subnets_without_eip (_ : unit) (_ : string) (_ : gmap string string)
    (_ : ec2.VpcProps) : list ec2.Subnet * list ec2.Subnet :=
  ( [Sample.public_subnet "1"; bare_public_subnet "2"],
    [Sample.private_subnet "1"] ).

End Degenerate.

(** ** Running loops and views *)

Lemma Ok_inj {A} (a b : A) : Ok a = Ok b → a = b.
Proof. congruence. Qed.

Lemma find_child_run subnet st :
  find_child subnet "EIP" st =
    match elastic_ip_of subnet with
    | Some elastic_ip => Ok (elastic_ip, st)
    | None => Raise (ChildNotFound "EIP")
    end.
Proof.
  unfold find_child, elastic_ip_of, lift.
  by destruct (list_find _ _) as [[i [k c]]|].
Qed.

Lemma elastic_ip_of_Some subnet elastic_ip :
  elastic_ip_of subnet = Some elastic_ip →
  ("EIP", elastic_ip) ∈ ec2.node_children subnet.
Proof.
  unfold elastic_ip_of. intros Hfind. apply fmap_Some in Hfind.
  destruct Hfind as ([i [k c]] & Hfind & ->).
  apply list_find_Some in Hfind as (Hi & Hk & _).
  simpl in Hk. subst k. by eapply list_elem_of_lookup_2.
Qed.

Lemma elastic_ip_of_is_Some subnet :
  is_Some (elastic_ip_of subnet) ↔ has_elastic_ip subnet.
Proof.
  unfold elastic_ip_of, has_elastic_ip. rewrite fmap_is_Some. split.
  - intros [[i [k c]] Hfind]. apply list_find_Some in Hfind as (Hi & Hk & _).
    simpl in Hk. subst k. exists c. by eapply list_elem_of_lookup_2.
  - intros [c Hc].
    apply (list_find_elem_of (λ c, c.1 = "EIP") _ ("EIP", c)); done.
Qed.

Lemma for_each_run {A} (l : list A) (body : A → M unit)
    (f : A → option (string * Construct)) (e : Error) :
  (∀ x st, body x st = match f x with
                       | Some c => Ok ((), extend [c] st)
                       | None => Raise e
                       end) →
  ∀ st, for_each l body st = match mapM f l with
                             | Some cs => Ok ((), extend cs st)
                             | None => Raise e
                             end.
Proof.
  intros Hbody. induction l as [|x l IH]; intros st.
  - destruct st. unfold extend. simpl. by rewrite app_nil_r.
  - simpl. unfold mbind at 1, M_bind. rewrite Hbody.
    destruct (f x) as [c|]; simpl; [|done].
    rewrite IH. destruct (mapM f l) as [cs|]; simpl; [|done].
    unfold extend; simpl. by rewrite <- app_assoc.
Qed.

Lemma select_cons {A} (view : Construct → option A) c cs :
  select view (c :: cs) =
    match view c.2 with Some a => [(c.1, a)] | None => [] end
      ++ select view cs.
Proof. unfold select. simpl. by destruct (view c.2). Qed.

Lemma select_app {A} (view : Construct → option A) cs1 cs2 :
  select view (cs1 ++ cs2) = select view cs1 ++ select view cs2.
Proof. apply omap_app. Qed.

(** The loop declares parameter records only, one per subnet, in order. *)
Lemma eip_parameters_records subnets cs :
  mapM eip_parameter subnets = Some cs →
  ∃ records,
    cs = prod_map Datatypes.id CStringParameter <$> records ∧
    Forall2 is_record_of subnets records.
Proof.
  intros Hcs. apply mapM_Some in Hcs.
  induction Hcs as [|subnet c subnets cs Hc _ (records & -> & Hall)].
  - exists []. split; [done | constructor].
  - unfold eip_parameter in Hc.
    destruct (elastic_ip_of subnet) as [elastic_ip|] eqn:Heip;
      simpl in Hc; [|done].
    injection Hc as <-.
    exists (eip_record subnet elastic_ip :: records). split.
    + reflexivity.
    + constructor; [by exists elastic_ip | done].
Qed.

Lemma select_records_other {A} (view : Construct → option A) records :
  (∀ p, view (CStringParameter p) = None) →
  select view (prod_map Datatypes.id CStringParameter <$> records) = [].
Proof.
  intros Hview. induction records as [|[k p] records IH]; [done|].
  unfold select in *. simpl. by rewrite Hview.
Qed.

Lemma select_records records :
  select (λ c, match c with CStringParameter p => Some p | _ => None end)
         (prod_map Datatypes.id CStringParameter <$> records) = records.
Proof.
  induction records as [|[k p] records IH]; [done|].
  change (select _ _) with ((k, p) :: select
    (λ c, match c with CStringParameter p => Some p | _ => None end)
    (prod_map Datatypes.id CStringParameter <$> records)).
  by rewrite IH.
Qed.

(** ** Parameter names identify subnets *)

Lemma append_length (a b : string) :
  String.length (a +:+ b) = String.length a + String.length b.
Proof. induction a as [|c a IH]; simpl; [done | by rewrite IH]. Qed.

Lemma append_inj_r (a b s : string) : a +:+ s = b +:+ s → a = b.
Proof.
  revert b. induction a as [|c a IH]; intros [|d b] Heq; simpl in Heq.
  - done.
  - apply (f_equal String.length) in Heq.
    rewrite !append_length in Heq. simpl in Heq. lia.
  - apply (f_equal String.length) in Heq.
    rewrite !append_length in Heq. simpl in Heq. lia.
  - injection Heq as -> Heq. f_equal. by apply IH.
Qed.

Lemma parameter_name_inj (a b : string) :
  "/SDKPandas/VPC/" +:+ a +:+ "/EIP" = "/SDKPandas/VPC/" +:+ b +:+ "/EIP" → a = b.
Proof. intros Heq. simplify_eq/=. by eapply append_inj_r. Qed.

Lemma records_absent subnets records subnet :
  Forall2 is_record_of subnets records →
  ec2.node_id subnet ∉ ec2.node_id <$> subnets →
  filter (named_after subnet) records = [].
Proof.
  intros Hrecords.
  induction Hrecords as [|s r ss rs (e & _ & ->) _ IH]; [done|].
  rewrite fmap_cons, not_elem_of_cons. intros [Hne Hnotin].
  rewrite filter_cons_False; [by apply IH|].
  unfold named_after. simpl. intros Heq%parameter_name_inj. congruence.
Qed.

Lemma records_unique subnets records :
  Forall2 is_record_of subnets records →
  NoDup (ec2.node_id <$> subnets) →
  Forall (λ subnet,
            ∃ elastic_ip, elastic_ip_of subnet = Some elastic_ip ∧
              filter (named_after subnet) records =
                [eip_record subnet elastic_ip])
         subnets.
Proof.
  intros Hrecords.
  induction Hrecords as [|s r ss rs (e & He & ->) Hrest IH]; [constructor|].
  rewrite fmap_cons, NoDup_cons. intros [Hnotin Hnodup]. constructor.
  - exists e. split; [done|]. rewrite filter_cons_True by done.
    f_equal. by eapply records_absent.
  - specialize (IH Hnodup).
    rewrite Forall_forall in IH |- *. intros s' Hin.
    destruct (IH s' Hin) as (e' & He' & Hfilter). exists e'. split; [done|].
    rewrite filter_cons_False; [done|].
    unfold named_after. simpl. intros Heq%parameter_name_inj.
    apply Hnotin. rewrite Heq. by apply list_elem_of_fmap_2.
Qed.

(** ** Identifiers of the declared constructs *)
Lemma has_space_app (a b : string) :
  has_space (a +:+ b) = has_space a || has_space b.
Proof.
  induction a as [|c a IH]; simpl; [done|]. by rewrite IH, orb_assoc.
Qed.

Lemma eip_parameter_id_space subnet : has_space (eip_parameter_id subnet) = true.
Proof. unfold eip_parameter_id. rewrite has_space_app. apply orb_true_r. Qed.

Lemma eip_parameter_id_inj subnet1 subnet2 :
  eip_parameter_id subnet1 = eip_parameter_id subnet2 →
  ec2.node_id subnet1 = ec2.node_id subnet2.
Proof. apply append_inj_r. Qed.

Lemma records_ids subnets records :
  Forall2 is_record_of subnets records →
  records.*1 = eip_parameter_id <$> subnets.
Proof.
  intros Hrecords.
  induction Hrecords as [|s r ss rs (e & _ & ->) _ IH]; [done|].
  rewrite !fmap_cons. by rewrite IH.
Qed.

Lemma construct_records_ids (records : list (string * ssm.StringParameterProps)) :
  (prod_map Datatypes.id CStringParameter <$> records).*1 = records.*1.
Proof.
  induction records as [|[k p] records IH]; [done|].
  rewrite !fmap_cons. simpl. f_equal. exact IH.
Qed.

Lemma eip_parameter_ids_NoDup subnets :
  NoDup (ec2.node_id <$> subnets) → NoDup (eip_parameter_id <$> subnets).
Proof.
  induction subnets as [|s ss IH]; [constructor|].
  rewrite !fmap_cons, !NoDup_cons. intros [Hnotin Hnodup]. split; [|by apply IH].
  intros Hin. apply Hnotin. apply list_elem_of_fmap in Hin as (s' & Heq & Hin).
  apply eip_parameter_id_inj in Heq. rewrite Heq. by apply list_elem_of_fmap_2.
Qed.

(** ** Inversion of a successful construction

    [construct H] runs the constructor symbolically in [H : BaseStack_init
    .. = Ok self]: the loop is replaced by its list of records, the four
    subscripts are named, and [H] is replaced by one equation for each
    attribute of [self] and one for the children of its node.  [view]
    then evaluates a view of the node, and [attributes] the attributes. *)

Ltac run_constructor :=
  cbv [BaseStack_init BaseStack_declare mbind M_bind mret M_ret ec2_Vpc
       add_child Tags_add ssm_StringParameter kms_Key kms_Alias s3_Bucket
       iam_Role glue_Database lf_CfnPermissions logs_LogGroup logs_LogStream
       CfnOutput index lift raise empty_node Stack_init
       children tags construct_id kwargs region
       ec2.public_subnets ec2.private_subnets ec2.vpc_node_id];
  cbn [app].

Ltac run_loop :=
  match goal with
  | |- context [for_each ?l ?body ?st] =>
      rewrite (for_each_run l body eip_parameter (ChildNotFound "EIP"));
      [| let x := fresh in let st' := fresh in
         intros x st'; rewrite find_child_run; unfold eip_parameter;
         by destruct (elastic_ip_of x) ]
  end.

Section Properties.

Context {Scope : Type}.
Variable stack_region : Scope → string → gmap string string → Value.
Variable vpc_subnets :
  Scope → string → gmap string string → ec2.VpcProps →
  list ec2.Subnet * list ec2.Subnet.

Ltac construct H :=
  let records := fresh "records" in
  let Hrecords := fresh "Hrecords" in
  revert H; run_constructor; run_loop;
  fold network_props;
  destruct (mapM eip_parameter _) as [?cs|] eqn:Hloop; [|discriminate];
  apply eip_parameters_records in Hloop as (records & -> & Hrecords);
  cbn [extend children tags app];
  destruct ((vpc_subnets _ _ _ network_props).1 !! 0)
    as [?public_subnet_0|] eqn:?Hpublic_0; [|discriminate];
  cbn [children tags app];
  destruct ((vpc_subnets _ _ _ network_props).1 !! 1)
    as [?public_subnet_1|] eqn:?Hpublic_1; [|discriminate];
  cbn [children tags app];
  destruct ((vpc_subnets _ _ _ network_props).1 !! 2)
    as [?public_subnet_2|] eqn:?Hpublic_2; [|discriminate];
  cbn [children tags app];
  destruct ((vpc_subnets _ _ _ network_props).2 !! 0)
    as [?private_subnet_0|] eqn:?Hprivate_0; [|discriminate];
  cbn [children tags app];
  intros H; apply Ok_inj in H;
  pose proof (f_equal base H) as Hbase;
  pose proof (f_equal vpc H) as Hvpc;
  pose proof (f_equal key H) as Hkey;
  pose proof (f_equal bucket H) as Hbucket;
  pose proof (f_equal (λ s, children (node s)) H) as Hnode;
  clear H;
  cbn [base vpc key bucket node children] in Hbase, Hvpc, Hkey, Hbucket, Hnode;
  rewrite <- ?app_assoc in Hnode; cbn [app] in Hnode;
  symmetry in Hbase, Hvpc, Hkey, Hbucket, Hnode.

Ltac view :=
  match goal with
  | Hnode : children (node ?self) = _ |- _ =>
      rewrite ?Hnode, ?select_cons, ?select_app, ?select_records;
      rewrite ?select_records_other by done
  end.

Ltac attributes :=
  unfold get_vpc, get_key, get_bucket;
  repeat match goal with
  | Heq : vpc ?self = _ |- context [vpc ?self] => rewrite Heq
  | Heq : key ?self = _ |- context [key ?self] => rewrite Heq
  | Heq : bucket ?self = _ |- context [bucket ?self] => rewrite Heq
  | Heq : base ?self = _ |- context [base ?self] => rewrite Heq
  end.

(** ** The declared outputs *)

(** C1, as the spec states it, fails: the sample deployment declares an
    output for the region besides the eleven outputs the spec lists, so
    the number of output records is not eleven. *)
Lemma outputs_count_not_eleven :
  ∃ self,
    BaseStack_init Sample.region Sample.subnets () "aws-sdk-pandas-base" ∅
      = Ok self ∧
    (outputs (node self)).*1 !! 0 = Some "Region" ∧
    length (outputs (node self)) ≠ 11.
Proof.
  destruct (BaseStack_init _ _ _ _ _) as [self|e] eqn:Hself;
    vm_compute in Hself; [|discriminate].
  injection Hself as <-. eexists. split; [reflexivity|].
  split; [reflexivity | vm_compute; discriminate].
Qed.

(** C1 (amended): every construction of the stack declares exactly
    twelve output records, the same in every run: the region, the network
    id, the three public subnet ids, the private subnet id, the key ARN,
    the bucket name, the database name, the role ARN, the log group name
    and the log stream name. *)
Theorem outputs_count scope id config self :
  BaseStack_init stack_region vpc_subnets scope id config = Ok self →
  (outputs (node self)).*1 =
    [ "Region"; "VPC"; "PublicSubnet1"; "PublicSubnet2"; "PublicSubnet3";
      "PrivateSubnet"; "KmsKeyArn"; "BucketName"; "GlueDatabaseName";
      "GlueDataQualityRole"; "LogGroupName"; "LogStream" ] ∧
  NoDup (outputs (node self)).*1 ∧
  length (outputs (node self)) = 12.
Proof.
  intros H. construct H. unfold outputs. view.
  split; [reflexivity|]. split; [|reflexivity].
  apply (bool_decide_unpack _). by vm_compute.
Qed.

(** C6: exactly seven outputs carry a cross-stack export name: the ones
    whose values are the network id, the ids of the public subnets at
    positions 0, 1 and 2, the id of the private subnet at position 0, the
    key ARN and the bucket name, each under its fixed literal export name;
    the five remaining outputs carry none. *)
Theorem exported_outputs_fixed scope id config self :
  BaseStack_init stack_region vpc_subnets scope id config = Ok self →
  ∃ public_subnet_0 public_subnet_1 public_subnet_2 private_subnet_0,
    ec2.public_subnets (get_vpc self) !! 0 = Some public_subnet_0 ∧
    ec2.public_subnets (get_vpc self) !! 1 = Some public_subnet_1 ∧
    ec2.public_subnets (get_vpc self) !! 2 = Some public_subnet_2 ∧
    ec2.private_subnets (get_vpc self) !! 0 = Some private_subnet_0 ∧
    exported_outputs (node self) =
      [ ("VPC", ec2.vpc_id (get_vpc self), "aws-sdk-pandas-base-VPC");
        ("PublicSubnet1", ec2.subnet_id public_subnet_0,
         "aws-sdk-pandas-base-PublicSubnet1");
        ("PublicSubnet2", ec2.subnet_id public_subnet_1,
         "aws-sdk-pandas-base-PublicSubnet2");
        ("PublicSubnet3", ec2.subnet_id public_subnet_2,
         "aws-sdk-pandas-base-PublicSubnet3");
        ("PrivateSubnet", ec2.subnet_id private_subnet_0,
         "aws-sdk-pandas-base-PrivateSubnet");
        ("KmsKeyArn", kms.key_arn (get_key self),
         "aws-sdk-pandas-base-KmsKeyArn");
        ("BucketName", s3.bucket_name (get_bucket self),
         "aws-sdk-pandas-base-BucketName") ] ∧
    (filter (λ o, export_name o.2 = None) (outputs (node self))).*1 =
      [ "Region"; "GlueDatabaseName"; "GlueDataQualityRole";
        "LogGroupName"; "LogStream" ].
Proof.
  intros H. construct H.
  exists public_subnet_0, public_subnet_1, public_subnet_2, private_subnet_0.
  unfold exported_outputs, outputs. view. attributes.
  repeat split; first [assumption | reflexivity].
Qed.

(** ** The network *)

(** C4: exactly one network is declared; its CIDR block is 11.19.224.0/19
    and both its DNS-hostnames flag and its DNS-support flag are enabled. *)
Theorem network_declared_once scope id config self :
  BaseStack_init stack_region vpc_subnets scope id config = Ok self →
  networks (node self) = [("aws-sdk-pandas-vpc", get_vpc self)] ∧
  ec2.cidr (ec2.vpc_props (get_vpc self)) = "11.19.224.0/19" ∧
  ec2.enable_dns_hostnames (ec2.vpc_props (get_vpc self)) = true ∧
  ec2.enable_dns_support (ec2.vpc_props (get_vpc self)) = true.
Proof.
  intros H. construct H. unfold networks. view. attributes.
  by repeat split.
Qed.

(** ** The bucket *)

(** C3: whatever configuration map is passed through, the bucket is
    declared once and has exactly one lifecycle rule; the rule is enabled,
    expires objects after 1 day and aborts incomplete multipart uploads
    after 1 day. *)
Theorem bucket_lifecycle scope id config self :
  BaseStack_init stack_region vpc_subnets scope id config = Ok self →
  buckets (node self) = [("aws-sdk-pandas", s3.bucket_props (get_bucket self))] ∧
  ∃ rule,
    s3.lifecycle_rules (s3.bucket_props (get_bucket self)) = [rule] ∧
    s3.enabled rule = true ∧
    s3.expiration rule = {| amount := 1; time_unit := Days |} ∧
    s3.abort_incomplete_multipart_upload_after rule =
      {| amount := 1; time_unit := Days |}.
Proof.
  intros H. construct H. unfold buckets. view. attributes.
  split; [reflexivity|]. eexists. by repeat split.
Qed.

(** ** The role, the database and the permission grant *)

(** C7: the data-quality role is declared once, with one trust principal
    (the glue service), exactly two attached managed policies, and exactly
    one inline policy, whose single statement grants the single action
    lakeformation:GetDataAccess: the statement is built without an effect,
    so its effect is ALLOW, and it covers every resource. *)
Theorem data_quality_role scope id config self :
  BaseStack_init stack_region vpc_subnets scope id config = Ok self →
  ∃ role,
    roles (node self) = [("aws-sdk-pandas-glue-data-quality-role", role)] ∧
    iam.role_name role = "GlueDataQualityRole" ∧
    iam.assumed_by role = iam.ServicePrincipal "glue.amazonaws.com" ∧
    iam.managed_policies role =
      [ iam.from_aws_managed_policy_name "AmazonS3FullAccess";
        iam.from_aws_managed_policy_name "AWSGlueConsoleFullAccess" ] ∧
    ∃ statement,
      map_to_list (iam.inline_policies role) =
        [("GetDataAccess", {| iam.statements := [statement] |})] ∧
      iam.actions statement = ["lakeformation:GetDataAccess"] ∧
      iam.effect statement = None ∧
      iam.statement_effect statement = iam.ALLOW ∧
      iam.resources statement = ["*"] ∧
      iam.principals statement = [] ∧
      iam.sid statement = None.
Proof.
  intros H. construct H. unfold roles. view.
  eexists. split; [reflexivity|]. cbn [iam.role_name iam.assumed_by
    iam.managed_policies iam.inline_policies].
  repeat (split; [reflexivity|]).
  eexists. rewrite map_to_list_singleton. by repeat split.
Qed.

(** C2: exactly one permission grant is declared; its principal is the
    ARN of the data-quality role, its resource is the catalog database
    with the all-tables wildcard, and its actions are exactly SELECT,
    ALTER, DESCRIBE, DROP, DELETE and INSERT, each once. *)
Theorem permission_grant scope id config self :
  BaseStack_init stack_region vpc_subnets scope id config = Ok self →
  ∃ role database grant,
    roles (node self) = [("aws-sdk-pandas-glue-data-quality-role", role)] ∧
    iam.role_name role = "GlueDataQualityRole" ∧
    databases (node self) = [("aws_sdk_pandas_glue_database", database)] ∧
    glue.database_name_prop database = "aws_sdk_pandas" ∧
    permission_grants (node self) =
      [("GlueDataQualitytRoleLFPermissions", grant)] ∧
    lf.data_lake_principal_identifier (lf.data_lake_principal grant) =
      iam.role_arn {| iam.role_node_id := "aws-sdk-pandas-glue-data-quality-role";
                      iam.role_props := role |} ∧
    lf.table_resource (lf.resource grant) =
      Some {| lf.database_name :=
                glue.database_name
                  {| glue.database_node_id := "aws_sdk_pandas_glue_database";
                     glue.database_props := database |};
              lf.table_wildcard := Some ∅ |} ∧
    lf.permissions grant =
      ["SELECT"; "ALTER"; "DESCRIBE"; "DROP"; "DELETE"; "INSERT"] ∧
    NoDup (lf.permissions grant).
Proof.
  intros H. construct H. unfold roles, databases, permission_grants. view.
  do 3 eexists. repeat (split; [reflexivity|]).
  apply (bool_decide_unpack _). by vm_compute.
Qed.

(** ** The log sink *)

(** C8: exactly one log group and exactly one log stream are declared,
    the stream belongs to that group, and the group keeps its events for
    30 days. *)
Theorem log_sink scope id config self :
  BaseStack_init stack_region vpc_subnets scope id config = Ok self →
  ∃ group,
    log_groups (node self) = [("aws_sdk_pandas_log_group", group)] ∧
    log_streams (node self) =
      [("aws_sdk_pandas_log_stream",
        {| logs.log_group :=
             {| logs.log_group_node_id := "aws_sdk_pandas_log_group";
                logs.log_group_props := group |} |})] ∧
    logs.retention_in_days (logs.retention group) = 30.
Proof.
  intros H. construct H. unfold log_groups, log_streams. view.
  eexists. by repeat split.
Qed.

(** ** The parameter records of the public subnets *)

(** C5: the parameter records correspond one to one, position by
    position, to the public subnets of the network: the record of a subnet
    holds the reference of that subnet's elastic-IP child as its value and
    is named after the subnet's identifier.  When the subnets have distinct
    identifiers, each public subnet has exactly one record under its name,
    and a subnet whose identifier is not that of a public subnet has none. *)
Theorem eip_parameter_per_public_subnet scope id config self :
  BaseStack_init stack_region vpc_subnets scope id config = Ok self →
  Forall2
    (λ subnet record,
       ∃ elastic_ip,
         ("EIP", elastic_ip) ∈ ec2.node_children subnet ∧
         record = eip_record subnet elastic_ip ∧
         ssm.string_value record.2 = ec2.ref elastic_ip ∧
         ssm.parameter_name record.2 =
           "/SDKPandas/VPC/" +:+ ec2.node_id subnet +:+ "/EIP")
    (ec2.public_subnets (get_vpc self)) (string_parameters (node self)) ∧
  length (string_parameters (node self)) =
    length (ec2.public_subnets (get_vpc self)) ∧
  (NoDup (ec2.node_id <$> ec2.public_subnets (get_vpc self)) →
   Forall
     (λ subnet,
        ∃ elastic_ip,
          ("EIP", elastic_ip) ∈ ec2.node_children subnet ∧
          filter (named_after subnet) (string_parameters (node self)) =
            [eip_record subnet elastic_ip])
     (ec2.public_subnets (get_vpc self))) ∧
  (∀ subnet,
     ec2.node_id subnet ∉ ec2.node_id <$> ec2.public_subnets (get_vpc self) →
     filter (named_after subnet) (string_parameters (node self)) = []).
Proof.
  intros H. construct H. unfold string_parameters. view. attributes.
  cbn [ec2.public_subnets app]. rewrite app_nil_r.
  split; [|split; [|split]].
  - eapply Forall2_impl; [exact Hrecords|].
    intros subnet record (elastic_ip & Heip & ->). exists elastic_ip.
    split; [by apply elastic_ip_of_Some | done].
  - symmetry. by eapply Forall2_length.
  - intros Hnodup.
    eapply Forall_impl; [by apply records_unique|].
    intros subnet (elastic_ip & Heip & Hfilter). exists elastic_ip.
    split; [by apply elastic_ip_of_Some | done].
  - intros subnet. by apply records_absent.
Qed.

(** ** When construction is defined *)

Lemma eip_parameters_defined subnets :
  Forall has_elastic_ip subnets → is_Some (mapM eip_parameter subnets).
Proof.
  intros Hall. apply mapM_is_Some. eapply Forall_impl; [exact Hall|].
  intros subnet Heip%elastic_ip_of_is_Some. destruct Heip as [e He].
  unfold compose, eip_parameter. rewrite He. by eexists.
Qed.

Lemma BaseStack_init_defined scope id config :
  subnets_sufficient (vpc_subnets scope id config network_props) →
  ∃ self, BaseStack_init stack_region vpc_subnets scope id config = Ok self.
Proof.
  intros (Hpublic & Heip & Hprivate).
  destruct (eip_parameters_defined _ Heip) as [cs Hcs].
  destruct (lookup_lt_is_Some_2
    (vpc_subnets scope id config network_props).1 0) as [p0 Hp0]; [lia|].
  destruct (lookup_lt_is_Some_2
    (vpc_subnets scope id config network_props).1 1) as [p1 Hp1]; [lia|].
  destruct (lookup_lt_is_Some_2
    (vpc_subnets scope id config network_props).1 2) as [p2 Hp2]; [lia|].
  destruct (lookup_lt_is_Some_2
    (vpc_subnets scope id config network_props).2 0) as [q0 Hq0]; [lia|].
  run_constructor. run_loop. fold network_props.
  rewrite Hcs. cbn [extend children tags].
  rewrite Hp0, Hp1, Hp2, Hq0. by eexists.
Qed.

Lemma records_have_elastic_ip subnets records :
  Forall2 is_record_of subnets records → Forall has_elastic_ip subnets.
Proof.
  intros Hrecords.
  induction Hrecords as [|s r ss rs (e & He & _) _ IH]; constructor; [|done].
  apply elastic_ip_of_is_Some. by exists e.
Qed.

Lemma BaseStack_init_needs scope id config self :
  BaseStack_init stack_region vpc_subnets scope id config = Ok self →
  subnets_sufficient (vpc_subnets scope id config network_props).
Proof.
  intros H. construct H. split; [|split].
  - by eapply lookup_lt_Some.
  - by eapply records_have_elastic_ip.
  - apply lookup_lt_Some in Hprivate_0. lia.
Qed.

(** C10: construction indexes the public subnets at 0, 1 and 2 and the
    private subnets at 0, and looks up the elastic-IP child of every
    public subnet, without guards.  It returns a stack exactly when the
    network yields at least three public subnets, an elastic-IP child on
    every public subnet, and at least one private subnet; under that
    condition each of these accesses finds its element. *)
Theorem construction_defined_iff scope id config :
  ((∃ self, BaseStack_init stack_region vpc_subnets scope id config = Ok self) ↔
   subnets_sufficient (vpc_subnets scope id config network_props)) ∧
  (subnets_sufficient (vpc_subnets scope id config network_props) →
   ∀ st,
     (∃ subnet, index (vpc_subnets scope id config network_props).1 0 st
                  = Ok (subnet, st)) ∧
     (∃ subnet, index (vpc_subnets scope id config network_props).1 1 st
                  = Ok (subnet, st)) ∧
     (∃ subnet, index (vpc_subnets scope id config network_props).1 2 st
                  = Ok (subnet, st)) ∧
     (∃ subnet, index (vpc_subnets scope id config network_props).2 0 st
                  = Ok (subnet, st)) ∧
     Forall (λ subnet, ∃ elastic_ip,
               find_child subnet "EIP" st = Ok (elastic_ip, st))
            (vpc_subnets scope id config network_props).1).
Proof.
  split.
  - split.
    + intros [self Hself]. by eapply BaseStack_init_needs.
    + apply BaseStack_init_defined.
  - intros (Hpublic & Heip & Hprivate) st. unfold index.
    destruct (lookup_lt_is_Some_2
      (vpc_subnets scope id config network_props).1 0) as [p0 ->]; [lia|].
    destruct (lookup_lt_is_Some_2
      (vpc_subnets scope id config network_props).1 1) as [p1 ->]; [lia|].
    destruct (lookup_lt_is_Some_2
      (vpc_subnets scope id config network_props).1 2) as [p2 ->]; [lia|].
    destruct (lookup_lt_is_Some_2
      (vpc_subnets scope id config network_props).2 0) as [q0 ->]; [lia|].
    repeat (split; [by eexists|]).
    eapply Forall_impl; [exact Heip|].
    intros subnet [e He]%elastic_ip_of_is_Some.
    exists e. by rewrite find_child_run, He.
Qed.

(** ** Further properties of the constructor *)

Ltac construct_object H :=
  let records := fresh "records" in
  let Hrecords := fresh "Hrecords" in
  revert H; run_constructor; run_loop;
  fold network_props;
  destruct (mapM eip_parameter _) as [?cs|] eqn:Hloop; [|discriminate];
  apply eip_parameters_records in Hloop as (records & -> & Hrecords);
  cbn [extend children tags app];
  destruct ((vpc_subnets _ _ _ network_props).1 !! 0)
    as [?public_subnet_0|] eqn:?Hpublic_0; [|discriminate];
  cbn [children tags app];
  destruct ((vpc_subnets _ _ _ network_props).1 !! 1)
    as [?public_subnet_1|] eqn:?Hpublic_1; [|discriminate];
  cbn [children tags app];
  destruct ((vpc_subnets _ _ _ network_props).1 !! 2)
    as [?public_subnet_2|] eqn:?Hpublic_2; [|discriminate];
  cbn [children tags app];
  destruct ((vpc_subnets _ _ _ network_props).2 !! 0)
    as [?private_subnet_0|] eqn:?Hprivate_0; [|discriminate];
  cbn [children tags app];
  intros H; apply Ok_inj in H.

Lemma BaseStack_init_ids scope id config self :
  BaseStack_init stack_region vpc_subnets scope id config = Ok self →
  construct_ids (node self) =
    "aws-sdk-pandas-vpc"
      :: (eip_parameter_id <$> ec2.public_subnets (get_vpc self))
      ++ [ "aws-sdk-pandas-key"; "aws-sdk-pandas-key-alias"; "aws-sdk-pandas";
           "aws-sdk-pandas-glue-data-quality-role";
           "aws_sdk_pandas_glue_database";
           "GlueDataQualitytRoleLFPermissions";
           "aws_sdk_pandas_log_group"; "aws_sdk_pandas_log_stream";
           "Region"; "VPC"; "PublicSubnet1"; "PublicSubnet2"; "PublicSubnet3";
           "PrivateSubnet"; "KmsKeyArn"; "BucketName"; "GlueDatabaseName";
           "GlueDataQualityRole"; "LogGroupName"; "LogStream" ].
Proof.
  intros H. construct H. attributes. cbn [ec2.public_subnets].
  unfold construct_ids. rewrite Hnode.
  rewrite fmap_cons, fmap_app, construct_records_ids.
  rewrite (records_ids _ _ Hrecords). reflexivity.
Qed.

(** X1: the constructs are declared in a fixed order: the network, one
    parameter record per public subnet in the order of the subnets, then
    the key, its alias, the bucket, the role, the database, the permission
    grant, the log group, the log stream and the twelve outputs; with n
    public subnets the stack holds 21 + n constructs. *)
Theorem declaration_order scope id config self :
  BaseStack_init stack_region vpc_subnets scope id config = Ok self →
  construct_ids (node self) =
    "aws-sdk-pandas-vpc"
      :: (eip_parameter_id <$> ec2.public_subnets (get_vpc self))
      ++ [ "aws-sdk-pandas-key"; "aws-sdk-pandas-key-alias"; "aws-sdk-pandas";
           "aws-sdk-pandas-glue-data-quality-role";
           "aws_sdk_pandas_glue_database";
           "GlueDataQualitytRoleLFPermissions";
           "aws_sdk_pandas_log_group"; "aws_sdk_pandas_log_stream";
           "Region"; "VPC"; "PublicSubnet1"; "PublicSubnet2"; "PublicSubnet3";
           "PrivateSubnet"; "KmsKeyArn"; "BucketName"; "GlueDatabaseName";
           "GlueDataQualityRole"; "LogGroupName"; "LogStream" ] ∧
  length (construct_ids (node self)) =
    21 + length (ec2.public_subnets (get_vpc self)).
Proof.
  intros H. apply BaseStack_init_ids in H. split; [exact H|].
  rewrite H. cbn [length].
  rewrite length_app, length_fmap. cbn [length]. lia.
Qed.

(** X2: the identifiers of the declared constructs are pairwise distinct
    exactly when the public subnets have pairwise distinct identifiers: a
    parameter record never takes the identifier of another kind of
    construct, and two records collide only for two subnets of the same
    identifier. *)
Theorem construct_ids_distinct scope id config self :
  BaseStack_init stack_region vpc_subnets scope id config = Ok self →
  NoDup (construct_ids (node self)) ↔
  NoDup (ec2.node_id <$> ec2.public_subnets (get_vpc self)).
Proof.
  intros H. apply BaseStack_init_ids in H. rewrite H. clear H.
  rewrite NoDup_cons, NoDup_app. split.
  - intros (_ & Hnodup & _).
    unfold eip_parameter_id in Hnodup.
    rewrite (list_fmap_compose ec2.node_id (λ n, n +:+ " EIP SSM")) in Hnodup.
    by apply NoDup_fmap_1 in Hnodup.
  - intros Hnodup. split; [|split; [|split]].
    + rewrite elem_of_app. intros [Hin|Hin].
      * apply list_elem_of_fmap in Hin as (subnet & Heq & _).
        apply (f_equal has_space) in Heq.
        rewrite eip_parameter_id_space in Heq. discriminate.
      * revert Hin. apply (bool_decide_unpack _). by vm_compute.
    + by apply eip_parameter_ids_NoDup.
    + intros x Hin. apply list_elem_of_fmap in Hin as (subnet & -> & _).
      intros Hin.
      assert (Hspace : Forall (λ i, has_space i = false)
        [ "aws-sdk-pandas-key"; "aws-sdk-pandas-key-alias"; "aws-sdk-pandas";
           "aws-sdk-pandas-glue-data-quality-role";
           "aws_sdk_pandas_glue_database";
           "GlueDataQualitytRoleLFPermissions";
           "aws_sdk_pandas_log_group"; "aws_sdk_pandas_log_stream";
           "Region"; "VPC"; "PublicSubnet1"; "PublicSubnet2"; "PublicSubnet3";
           "PrivateSubnet"; "KmsKeyArn"; "BucketName"; "GlueDatabaseName";
           "GlueDataQualityRole"; "LogGroupName"; "LogStream" ]).
      { repeat constructor. }
      rewrite Forall_forall in Hspace. specialize (Hspace _ Hin).
      rewrite eip_parameter_id_space in Hspace. discriminate.
    + apply (bool_decide_unpack _). by vm_compute.
Qed.


(** X3: one key and one alias are declared; the alias is named
    alias/aws-sdk-pandas-key and targets the key that [get_key] returns;
    the key's policy has one statement, which allows kms:* on every
    resource to the account root principal. *)
Theorem key_and_alias scope id config self :
  BaseStack_init stack_region vpc_subnets scope id config = Ok self →
  keys (node self) = [("aws-sdk-pandas-key", kms.key_props (get_key self))] ∧
  kms.key_node_id (get_key self) = "aws-sdk-pandas-key" ∧
  aliases (node self) =
    [("aws-sdk-pandas-key-alias",
      {| kms.alias_name := "alias/aws-sdk-pandas-key";
         kms.target_key := get_key self |})] ∧
  ∃ statement,
    iam.statements (kms.policy (kms.key_props (get_key self))) = [statement] ∧
    iam.effect statement = Some iam.ALLOW ∧
    iam.actions statement = ["kms:*"] ∧
    iam.principals statement = [iam.AccountRootPrincipal] ∧
    iam.resources statement = ["*"].
Proof.
  intros H. construct H. unfold keys, aliases. view. attributes.
  repeat (split; [reflexivity|]). eexists. by repeat split.
Qed.

(** X4: the bucket that [get_bucket] returns blocks public access in all
    four ways and is versioned. *)
Theorem bucket_private_versioned scope id config self :
  BaseStack_init stack_region vpc_subnets scope id config = Ok self →
  s3.bucket_node_id (get_bucket self) = "aws-sdk-pandas" ∧
  s3.block_public_access (s3.bucket_props (get_bucket self)) =
    {| s3.block_public_acls := true; s3.block_public_policy := true;
       s3.ignore_public_acls := true; s3.restrict_public_buckets := true |} ∧
  s3.versioned (s3.bucket_props (get_bucket self)) = true.
Proof. intros H. construct H. attributes. by repeat split. Qed.

(** X5: one catalog database is declared; it is named aws_sdk_pandas and
    its location is the s3:// URI of the one bucket of the stack, the
    bucket that [get_bucket] returns. *)
Theorem database_in_bucket scope id config self :
  BaseStack_init stack_region vpc_subnets scope id config = Ok self →
  ∃ database,
    databases (node self) = [("aws_sdk_pandas_glue_database", database)] ∧
    glue.database_name_prop database = "aws_sdk_pandas" ∧
    glue.location_uri database =
      Lit "s3://" :: s3.bucket_name (get_bucket self) ∧
    buckets (node self) =
      [(s3.bucket_node_id (get_bucket self), s3.bucket_props (get_bucket self))].
Proof.
  intros H. construct H. unfold databases, buckets. view. attributes.
  eexists. by repeat split.
Qed.

(** X6: the only tag the stack attaches is Name = aws-sdk-pandas, and it
    is attached to the one network of the stack, the network that
    [get_vpc] returns. *)
Theorem network_tagged scope id config self :
  BaseStack_init stack_region vpc_subnets scope id config = Ok self →
  tags (node self) =
    [(ec2.vpc_node_id (get_vpc self), ("Name", "aws-sdk-pandas"))] ∧
  networks (node self) = [(ec2.vpc_node_id (get_vpc self), get_vpc self)].
Proof.
  intros H. split.
  - construct_object H. by subst self.
  - construct H. unfold networks. view. attributes. reflexivity.
Qed.

(** X7: the five outputs without export name carry the region of the
    stack, the name of the database, the ARN of the data-quality role, the
    name of the log group and the name of the log stream, in that order;
    the four constructs they refer to are declared in the stack. *)
Theorem unexported_outputs scope id config self :
  BaseStack_init stack_region vpc_subnets scope id config = Ok self →
  filter (λ o, export_name o.2 = None) (outputs (node self)) =
    [ ("Region",
       {| value := stack_region scope id config; export_name := None |});
      ("GlueDatabaseName",
       {| value := [Ref "aws_sdk_pandas_glue_database"];
          export_name := None |});
      ("GlueDataQualityRole",
       {| value := [GetAtt "aws-sdk-pandas-glue-data-quality-role" "Arn"];
          export_name := None |});
      ("LogGroupName",
       {| value := [Ref "aws_sdk_pandas_log_group"]; export_name := None |});
      ("LogStream",
       {| value := [Ref "aws_sdk_pandas_log_stream"]; export_name := None |}) ] ∧
  region (base self) = stack_region scope id config ∧
  Forall (λ i, i ∈ construct_ids (node self))
    [ "aws_sdk_pandas_glue_database"; "aws-sdk-pandas-glue-data-quality-role";
      "aws_sdk_pandas_log_group"; "aws_sdk_pandas_log_stream" ].
Proof.
  intros H. pose proof (BaseStack_init_ids _ _ _ _ H) as Hids.
  construct H. unfold outputs. view. attributes.
  split; [reflexivity|]. split; [reflexivity|].
  rewrite Hids.
  repeat (apply Forall_cons_2; [apply elem_of_cons; right; apply elem_of_app;
    right; apply (bool_decide_unpack _); by vm_compute|]).
  apply Forall_nil_2.
Qed.


Lemma eip_parameters_undefined subnets :
  Exists (λ subnet, ¬ has_elastic_ip subnet) subnets →
  mapM eip_parameter subnets = None.
Proof.
  intros Hmissing. apply eq_None_not_Some. intros Hsome.
  apply mapM_is_Some in Hsome.
  apply Exists_exists in Hmissing as (subnet & Hin & Hno).
  rewrite Forall_forall in Hsome. specialize (Hsome _ Hin).
  apply Hno, elastic_ip_of_is_Some.
  unfold compose, eip_parameter in Hsome.
  destruct (elastic_ip_of subnet); [by eexists | by destruct Hsome].
Qed.

(** X8: when some public subnet has no elastic-IP child, construction
    ends with the exception of [find_child], however many subnets there
    are: the loop over the public subnets runs before any subscript. *)
Theorem missing_elastic_ip_raises scope id config :
  Exists (λ subnet, ¬ has_elastic_ip subnet)
         (vpc_subnets scope id config network_props).1 →
  BaseStack_init stack_region vpc_subnets scope id config
    = Raise (ChildNotFound "EIP").
Proof.
  intros Hmissing%eip_parameters_undefined.
  run_constructor. run_loop. fold network_props. by rewrite Hmissing.
Qed.

(** X9: when every public subnet has an elastic-IP child but there are
    fewer than three public subnets, or no private subnet, construction
    ends with an IndexError. *)
Theorem too_few_subnets_raises scope id config :
  Forall has_elastic_ip (vpc_subnets scope id config network_props).1 →
  length (vpc_subnets scope id config network_props).1 < 3 ∨
    (vpc_subnets scope id config network_props).2 = [] →
  BaseStack_init stack_region vpc_subnets scope id config = Raise IndexError.
Proof.
  intros Heip Hfew.
  destruct (eip_parameters_defined _ Heip) as [cs Hcs].
  run_constructor. run_loop. fold network_props.
  rewrite Hcs. cbn [extend children tags].
  destruct ((vpc_subnets scope id config network_props).1 !! 0)
    as [p0|] eqn:Hp0; [|done].
  destruct ((vpc_subnets scope id config network_props).1 !! 1)
    as [p1|] eqn:Hp1; [|done].
  destruct ((vpc_subnets scope id config network_props).1 !! 2)
    as [p2|] eqn:Hp2; [|done].
  destruct ((vpc_subnets scope id config network_props).2 !! 0)
    as [q0|] eqn:Hq0; [|done].
  exfalso. destruct Hfew as [Hfew|Hfew].
  - apply lookup_lt_Some in Hp2. lia.
  - by rewrite Hfew in Hq0.
Qed.

(** X10: the constructor does not inspect the scope, the identifier or
    the configuration map: when the library derives the same region and
    the same subnets in two contexts and construction succeeds in the
    first, it succeeds in the second with the same node and the same
    network, key and bucket; the stack keeps the identifier and the map it
    was given. *)
Theorem kwargs_not_inspected scope1 scope2 id1 id2 config1 config2 self1 :
  stack_region scope1 id1 config1 = stack_region scope2 id2 config2 →
  vpc_subnets scope1 id1 config1 network_props
    = vpc_subnets scope2 id2 config2 network_props →
  BaseStack_init stack_region vpc_subnets scope1 id1 config1 = Ok self1 →
  ∃ self2,
    BaseStack_init stack_region vpc_subnets scope2 id2 config2 = Ok self2 ∧
    node self2 = node self1 ∧
    get_vpc self2 = get_vpc self1 ∧
    get_key self2 = get_key self1 ∧
    get_bucket self2 = get_bucket self1 ∧
    construct_id (base self2) = id2 ∧
    kwargs (base self2) = config2.
Proof.
  intros Hregion Hsubnets.
  unfold BaseStack_init. cbv zeta.
  assert (Hdeclare :
    BaseStack_declare vpc_subnets scope1
      (Stack_init stack_region scope1 id1 config1) empty_node =
    BaseStack_declare vpc_subnets scope2
      (Stack_init stack_region scope2 id2 config2) empty_node).
  { unfold BaseStack_declare, Stack_init.
    cbn [construct_id kwargs region]. fold network_props.
    by rewrite Hregion, Hsubnets. }
  rewrite Hdeclare.
  destruct (BaseStack_declare vpc_subnets scope2 _ empty_node)
    as [[[[v k] b] nd]|e]; intros Hself1; [|discriminate Hself1].
  apply Ok_inj in Hself1. subst self1. eexists. split; [reflexivity|].
  by repeat split.
Qed.

End Properties.

(** ** The properties at the sample deployment *)

(** [at_sample thm config] instantiates a property of every successful
    construction at the sample deployment built with [config]; the
    construction hypothesis is discharged by evaluation. *)
Ltac at_sample thm config :=
  match goal with
  | |- context [node ?self] =>
      pose proof (thm unit Sample.region Sample.subnets ()
                      "aws-sdk-pandas-base" config self
                      ltac:(vm_compute; reflexivity)) as Hsample
  end.

Lemma outputs_count_witness :
  ∃ self, Sample.stack = Ok self ∧ length (outputs (node self)) = 12.
Proof.
  eexists. split; [vm_compute; reflexivity|].
  at_sample @outputs_count (∅ : gmap string string).
  by destruct Hsample as (_ & _ & Hcount).
Defined.

Lemma exported_outputs_fixed_witness :
  ∃ self,
    Sample.stack = Ok self ∧
    (exported_outputs (node self)).*2 =
      [ "aws-sdk-pandas-base-VPC"; "aws-sdk-pandas-base-PublicSubnet1";
        "aws-sdk-pandas-base-PublicSubnet2";
        "aws-sdk-pandas-base-PublicSubnet3";
        "aws-sdk-pandas-base-PrivateSubnet"; "aws-sdk-pandas-base-KmsKeyArn";
        "aws-sdk-pandas-base-BucketName" ].
Proof.
  eexists. split; [vm_compute; reflexivity|].
  at_sample @exported_outputs_fixed (∅ : gmap string string).
  destruct Hsample as (p0 & p1 & p2 & q0 & _ & _ & _ & _ & Hexported & _).
  by rewrite Hexported.
Defined.

Lemma network_declared_once_witness :
  ∃ self,
    Sample.stack = Ok self ∧
    length (networks (node self)) = 1 ∧
    ec2.cidr (ec2.vpc_props (get_vpc self)) = "11.19.224.0/19".
Proof.
  eexists. split; [vm_compute; reflexivity|].
  at_sample @network_declared_once (∅ : gmap string string).
  destruct Hsample
    as (Hnetworks & Hcidr & _).
  split; [by rewrite Hnetworks | exact Hcidr].
Defined.

Lemma bucket_lifecycle_witness :
  ∃ self,
    BaseStack_init Sample.region Sample.subnets () "aws-sdk-pandas-base"
      {[ "env" := "dev" ]} = Ok self ∧
    length (buckets (node self)) = 1 ∧
    length (s3.lifecycle_rules (s3.bucket_props (get_bucket self))) = 1.
Proof.
  eexists. split; [vm_compute; reflexivity|].
  at_sample @bucket_lifecycle ({[ "env" := "dev" ]} : gmap string string).
  destruct Hsample
    as (Hbuckets & rule & Hrules & _).
  split; [by rewrite Hbuckets | by rewrite Hrules].
Defined.

Lemma data_quality_role_witness :
  ∃ self,
    Sample.stack = Ok self ∧
    ∃ role,
      roles (node self) = [("aws-sdk-pandas-glue-data-quality-role", role)] ∧
      length (iam.managed_policies role) = 2 ∧
      size (iam.inline_policies role) = 1 ∧
      ∃ statement,
        map_to_list (iam.inline_policies role) =
          [("GetDataAccess", {| iam.statements := [statement] |})] ∧
        iam.statement_effect statement = iam.ALLOW ∧
        iam.resources statement = ["*"].
Proof.
  eexists. split; [vm_compute; reflexivity|].
  at_sample @data_quality_role (∅ : gmap string string).
  destruct Hsample
    as (role & Hroles & _ & _ & Hmanaged & statement & Hinline & _ & _
        & Heffect & Hresources & _).
  exists role. split; [exact Hroles|]. split; [by rewrite Hmanaged|].
  split; [by rewrite <- length_map_to_list, Hinline|].
  exists statement. split; [exact Hinline|]. by split.
Defined.

Lemma permission_grant_witness :
  ∃ self,
    Sample.stack = Ok self ∧
    ∃ grant,
      permission_grants (node self) =
        [("GlueDataQualitytRoleLFPermissions", grant)] ∧
      lf.data_lake_principal_identifier (lf.data_lake_principal grant) =
        [GetAtt "aws-sdk-pandas-glue-data-quality-role" "Arn"] ∧
      length (lf.permissions grant) = 6.
Proof.
  eexists. split; [vm_compute; reflexivity|].
  at_sample @permission_grant (∅ : gmap string string).
  destruct Hsample
    as (role & database & grant & _ & _ & _ & _ & Hgrants & Hprincipal
        & _ & Hpermissions & _).
  exists grant. split; [exact Hgrants|].
  split; [exact Hprincipal | by rewrite Hpermissions].
Defined.

Lemma log_sink_witness :
  ∃ self,
    Sample.stack = Ok self ∧
    length (log_groups (node self)) = 1 ∧
    length (log_streams (node self)) = 1.
Proof.
  eexists. split; [vm_compute; reflexivity|].
  at_sample @log_sink (∅ : gmap string string).
  destruct Hsample
    as (group & Hgroups & Hstreams & _).
  split; [by rewrite Hgroups | by rewrite Hstreams].
Defined.

Lemma eip_parameter_per_public_subnet_witness :
  ∃ self,
    Sample.stack = Ok self ∧
    length (string_parameters (node self)) = 3 ∧
    NoDup (ec2.node_id <$> ec2.public_subnets (get_vpc self)) ∧
    Forall
      (λ subnet,
         ∃ elastic_ip,
           ("EIP", elastic_ip) ∈ ec2.node_children subnet ∧
           filter (named_after subnet) (string_parameters (node self)) =
             [eip_record subnet elastic_ip])
      (ec2.public_subnets (get_vpc self)) ∧
    filter (named_after (Sample.private_subnet "1"))
           (string_parameters (node self)) = [].
Proof.
  eexists. split; [vm_compute; reflexivity|].
  at_sample @eip_parameter_per_public_subnet (∅ : gmap string string).
  destruct Hsample as (_ & Hlength & Hunique & Habsent).
  assert (Hnodup : NoDup ["PublicSubnet1"; "PublicSubnet2"; "PublicSubnet3"]).
  { apply (bool_decide_unpack _). vm_compute. reflexivity. }
  split; [by rewrite Hlength|]. split; [exact Hnodup|].
  split; [exact (Hunique Hnodup)|].
  apply Habsent. apply (bool_decide_unpack _). vm_compute. reflexivity.
Defined.

Lemma sample_subnets_sufficient :
  subnets_sufficient (Sample.subnets () "aws-sdk-pandas-base" ∅ network_props).
Proof.
  split; [cbn; lia|]. split; [|cbn; lia].
  cbn [Sample.subnets fst].
  repeat first [apply Forall_nil_2 | apply Forall_cons_2].
  all: apply elastic_ip_of_is_Some; vm_compute; eexists; reflexivity.
Qed.

(** C10 at the sample deployment, and at a deployment over two
    availability zones only, where the subscript 2 raises. *)
Lemma construction_defined_iff_witness :
  (∃ self, Sample.stack = Ok self) ∧
  BaseStack_init Sample.region Sample.subnets_two_zones ()
    "aws-sdk-pandas-base" ∅ = Raise IndexError ∧
  ¬ subnets_sufficient (Sample.subnets_two_zones () "aws-sdk-pandas-base" ∅
                          network_props).
Proof.
  split; [|split].
  - apply (construction_defined_iff Sample.region Sample.subnets).
    exact sample_subnets_sufficient.
  - vm_compute. reflexivity.
  - intros Hsufficient.
    apply (construction_defined_iff Sample.region Sample.subnets_two_zones)
      in Hsufficient as [self Hself].
    vm_compute in Hself. discriminate.
Defined.

(** ** The further properties at the sample and degenerate deployments *)

Lemma declaration_order_witness :
  ∃ self,
    Sample.stack = Ok self ∧
    length (construct_ids (node self)) = 24 ∧
    take 4 (construct_ids (node self)) =
      [ "aws-sdk-pandas-vpc"; "PublicSubnet1 EIP SSM"; "PublicSubnet2 EIP SSM";
        "PublicSubnet3 EIP SSM" ].
Proof.
  eexists. split; [vm_compute; reflexivity|].
  at_sample @declaration_order (∅ : gmap string string).
  destruct Hsample as (Horder & Hcount).
  split; [by rewrite Hcount | by rewrite Horder].
Defined.

Lemma construct_ids_distinct_witness :
  ∃ self, Sample.stack = Ok self ∧ NoDup (construct_ids (node self)).
Proof.
  eexists. split; [vm_compute; reflexivity|].
  at_sample @construct_ids_distinct (∅ : gmap string string).
  apply Hsample. apply (bool_decide_unpack _). vm_compute. reflexivity.
Defined.

Lemma key_and_alias_witness :
  ∃ self,
    Sample.stack = Ok self ∧
    length (keys (node self)) = 1 ∧
    (aliases (node self)).*1 = ["aws-sdk-pandas-key-alias"].
Proof.
  eexists. split; [vm_compute; reflexivity|].
  at_sample @key_and_alias (∅ : gmap string string).
  destruct Hsample as (Hkeys & _ & Haliases & _).
  split; [by rewrite Hkeys | by rewrite Haliases].
Defined.

Lemma bucket_private_versioned_witness :
  ∃ self,
    Sample.stack = Ok self ∧
    s3.versioned (s3.bucket_props (get_bucket self)) = true ∧
    s3.block_public_policy
      (s3.block_public_access (s3.bucket_props (get_bucket self))) = true.
Proof.
  eexists. split; [vm_compute; reflexivity|].
  match goal with
  | |- context [get_bucket ?self] =>
      destruct (bucket_private_versioned Sample.region Sample.subnets ()
                  "aws-sdk-pandas-base" ∅ self ltac:(vm_compute; reflexivity))
        as (_ & Hblock & Hversioned)
  end.
  split; [exact Hversioned | by rewrite Hblock].
Defined.

Lemma database_in_bucket_witness :
  ∃ self,
    Sample.stack = Ok self ∧
    ∃ database,
      databases (node self) = [("aws_sdk_pandas_glue_database", database)] ∧
      glue.location_uri database = [Lit "s3://"; Ref "aws-sdk-pandas"].
Proof.
  eexists. split; [vm_compute; reflexivity|].
  at_sample @database_in_bucket (∅ : gmap string string).
  destruct Hsample as (database & Hdatabases & _ & Hlocation & _).
  exists database. split; [exact Hdatabases | exact Hlocation].
Defined.

Lemma network_tagged_witness :
  ∃ self,
    Sample.stack = Ok self ∧
    tags (node self) = [("aws-sdk-pandas-vpc", ("Name", "aws-sdk-pandas"))].
Proof.
  eexists. split; [vm_compute; reflexivity|].
  at_sample @network_tagged (∅ : gmap string string).
  exact (proj1 Hsample).
Defined.

Lemma unexported_outputs_witness :
  ∃ self,
    Sample.stack = Ok self ∧
    (filter (λ o, export_name o.2 = None) (outputs (node self))).*1 =
      [ "Region"; "GlueDatabaseName"; "GlueDataQualityRole"; "LogGroupName";
        "LogStream" ].
Proof.
  eexists. split; [vm_compute; reflexivity|].
  at_sample @unexported_outputs (∅ : gmap string string).
  destruct Hsample as (Houtputs & _). by rewrite Houtputs.
Defined.

Lemma missing_elastic_ip_raises_witness :
  BaseStack_init Sample.region Degenerate.subnets_without_eip ()
    "aws-sdk-pandas-base" ∅ = Raise (ChildNotFound "EIP").
Proof.
  apply (missing_elastic_ip_raises Sample.region Degenerate.subnets_without_eip).
  cbn [Degenerate.subnets_without_eip fst].
  apply Exists_cons_tl, Exists_cons_hd.
  intros Heip%elastic_ip_of_is_Some. vm_compute in Heip. by destruct Heip.
Defined.

Lemma too_few_subnets_raises_witness :
  BaseStack_init Sample.region Sample.subnets_two_zones ()
    "aws-sdk-pandas-base" ∅ = Raise IndexError.
Proof.
  apply (too_few_subnets_raises Sample.region Sample.subnets_two_zones).
  - cbn [Sample.subnets_two_zones fst].
    repeat first [apply Forall_nil_2 | apply Forall_cons_2].
    all: apply elastic_ip_of_is_Some; vm_compute; eexists; reflexivity.
  - left. cbn. lia.
Defined.

Lemma kwargs_not_inspected_witness :
  ∃ self1 self2,
    BaseStack_init Sample.region Sample.subnets () "aws-sdk-pandas-base" ∅
      = Ok self1 ∧
    BaseStack_init Sample.region Sample.subnets () "another-stack"
      {[ "env" := "dev" ]} = Ok self2 ∧
    node self2 = node self1.
Proof.
  eexists. 
  destruct (kwargs_not_inspected Sample.region Sample.subnets
              () () "aws-sdk-pandas-base" "another-stack"
              ∅ {[ "env" := "dev" ]} _ eq_refl eq_refl
              ltac:(vm_compute; reflexivity))
    as (self2 & Hself2 & Hnode & _).
  exists self2. split; [vm_compute; reflexivity|]. by split.
Defined.
